(** * pandaproxy/json/requests/error_reply.h

    A shallow embedding of the error body of the HTTP proxy and of its
    serializer

      inline void rjson_serialize(
        rapidjson::Writer<rapidjson::StringBuffer>& w, const error_body& v)

    together with the writer it drives and a decoder for the text it
    produces.  The serializer is embedded once, over the interface of the
    writer, and instantiated at the byte writer and at a recorder of the
    calls it makes. *)

From Stdlib Require Import ZArith NArith List String Ascii Bool Lia.
From Stdlib Require Import DecimalString DecimalZ DecimalPos.
Import ListNotations.
Local Open Scope string_scope.
#[local] Set Warnings "-register-all".

(** ** Characters that cannot be written inside a literal *)

Definition dquote : ascii := "034"%char.
Definition backslash : ascii := "092"%char.

(** [quoted s] is [s] between two double quotes, as raw text. *)
Definition quoted (s : string) : string :=
  String dquote (s ++ String dquote "").

(** ** Writer calls: state and assertion failures

    The methods of the writer return [bool] and update the writer through
    the reference they are called on; an assertion of the writer that does
    not hold ends the run.  [M W A] is the computation over a writer state
    [W] that returns an [A]. *)

Inductive assertion : Set :=
| SecondRoot        (* RAPIDJSON_ASSERT(!hasRoot_) *)
| NameExpected      (* RAPIDJSON_ASSERT(type == kStringType) *)
| NotInsideObject   (* RAPIDJSON_ASSERT(level_stack_.GetSize() >= sizeof(Level)) *)
| InsideArray       (* RAPIDJSON_ASSERT(!Top<Level>()->inArray) *)
| KeyWithoutValue.  (* RAPIDJSON_ASSERT(0 == Top<Level>()->valueCount % 2) *)

Inductive result (A : Type) : Type :=
| Ok (a : A)
| AssertionFailed (e : assertion).
Arguments Ok {A} a.
Arguments AssertionFailed {A} e.

Definition M (W A : Type) : Type := W -> result (A * W).

Definition ret {W A : Type} (a : A) : M W A := fun w => Ok (a, w).

Definition bind {W A B : Type} (c : M W A) (k : A -> M W B) : M W B :=
  fun w =>
    match c w with
    | Ok (a, w') => k a w'
    | AssertionFailed e => AssertionFailed e
    end.

Declare Scope writer_scope.
Delimit Scope writer_scope with writer.
Notation "x <- c ;; k" := (bind c (fun x => k))
  (at level 61, c at next level, right associativity) : writer_scope.
Notation "c ;; k" := (bind c (fun _ => k))
  (at level 61, right associativity) : writer_scope.
Local Open Scope writer_scope.

(** The state a run ends in, when it ends without a failed assertion. *)
Definition exec {W A : Type} (c : M W A) (w : W) : option W :=
  match c w with
  | Ok (_, w') => Some w'
  | AssertionFailed _ => None
  end.

(** ** The interface of the writer

    The five calls the serializer and its helpers make: [StartObject],
    [Key], [Int], [String] and [EndObject] of the writer (the spec's
    start_object, write_key, write_number, write_string, end_object). *)

Class Handler (W : Type) : Type := {
  StartObject : M W bool;
  Key : string -> M W bool;
  Int : Z -> M W bool;
  String_ : string -> M W bool;
  EndObject : M W bool
}.

(** ** rapidjson::Writer<rapidjson::StringBuffer> *)

Module rapidjson.

(** The writer is rapidjson::Writer<rapidjson::StringBuffer>, which
    json/json.h includes and which is not among the sources.  The spec
    asks of the sink that it starts and ends objects, writes string keys
    and scalar values, appends to an in-memory buffer, writes integers in
    the standard decimal form and strings with the standard JSON escaping,
    and that a sink in no state to begin a new value fails by its own
    contract. *)

Inductive Type_ : Set :=
| kNullType | kFalseType | kTrueType | kObjectType | kArrayType
| kStringType | kNumberType.

Definition is_kStringType (t : Type_) : bool :=
  match t with kStringType => true | _ => false end.

Record Level : Set := mkLevel {
  valueCount : N;     (* size_t *)
  inArray : bool
}.

(** Modelled from the spec: the state of rapidjson::Writer over a
    StringBuffer, which is not among the sources: the buffer the text is
    appended to, the stack of open levels with the number of values
    written in each, and whether the root value has been written. *)
Record Writer : Set := mkWriter {
  os : string;                (* the StringBuffer *)
  level_stack : list Level;   (* top of the stack first *)
  hasRoot : bool
}.

(** [Writer(os)] on an empty buffer, and [os.GetString()]. *)
Definition fresh : Writer := mkWriter "" [] false.
Definition GetString (w : Writer) : string := os w.

Definition size_max : N := 2 ^ 64 - 1.

(** [level->valueCount++] *)
Definition incr (l : Level) : Level :=
  mkLevel ((valueCount l + 1) mod (size_max + 1)) (inArray l).

(** [os_->Put(c)], for the characters of [s] in turn. *)
Definition Put (s : string) : M Writer unit :=
  fun w => Ok (tt, mkWriter (os w ++ s) (level_stack w) (hasRoot w)).

(** What [Prefix] writes before a value: nothing before the first value
    of a level, a comma between the elements of an array and between the
    members of an object, a colon between a name and its value. *)
Definition separator (l : Level) : string :=
  if (0 <? valueCount l)%N then
    if inArray l then ","
    else if N.even (valueCount l) then "," else ":"
  else "".

(** Modelled from the spec: [Prefix] of the writer, which is not among
    the sources; a sink in no state to begin a new value fails by its own
    contract, and otherwise writes its separator and counts the value. *)
Definition Prefix (type : Type_) : M Writer unit :=
  fun w =>
    match level_stack w with
    | level :: below =>
        if negb (inArray level) && N.even (valueCount level)
           && negb (is_kStringType type)
        then AssertionFailed NameExpected
        else Ok (tt, mkWriter (os w ++ separator level)
                              (incr level :: below) (hasRoot w))
    | [] =>
        if hasRoot w then AssertionFailed SecondRoot
        else Ok (tt, mkWriter (os w) [] true)
    end.

(** [EndValue]: the flush of a string buffer does nothing. *)
Definition EndValue (r : bool) : M Writer bool := ret r.

(** Modelled from the spec: [WriteInt] of the writer, which is not among
    the sources; the standard integer serialization, the decimal digits of
    [i] after a minus sign when it is negative. *)
Definition WriteInt (i : Z) : M Writer bool :=
  Put (NilZero.string_of_int (Z.to_int i)) ;; ret true.

Definition hexDigits (n : N) : ascii :=
  nth (N.to_nat n)
      ["0"; "1"; "2"; "3"; "4"; "5"; "6"; "7";
       "8"; "9"; "A"; "B"; "C"; "D"; "E"; "F"]%char "0"%char.

(** Modelled from the spec: the escape table of the writer, which is not
    among the sources; the standard JSON string escaping of control
    characters, quotes and backslashes.  The table gives the letter that
    follows the backslash, for the characters that are escaped. *)
Definition escape (c : ascii) : option ascii :=
  let n := N_of_ascii c in
  if (n <? 32)%N then
    Some (match n with
          | 8 => "b" | 9 => "t" | 10 => "n" | 12 => "f" | 13 => "r"
          | _ => "u"
          end%N%char)
  else if (n =? 34)%N then Some dquote
  else if (n =? 92)%N then Some backslash
  else None.

(** Modelled from the spec: one character of a string as the writer,
    which is not among the sources, writes it under the standard JSON
    escaping. *)
Definition WriteChar (c : ascii) : string :=
  match escape c with
  | Some e =>
      String backslash
        (String e
           (if Ascii.eqb e "u"
            then String "0" (String "0"
                   (String (hexDigits (N.shiftr (N_of_ascii c) 4))
                      (String (hexDigits (N.land (N_of_ascii c) 15)) "")))
            else ""))
  | None => String c ""
  end.

Fixpoint escaped (s : string) : string :=
  match s with
  | "" => ""
  | String c s' => WriteChar c ++ escaped s'
  end.

(** Modelled from the spec: [WriteString] of the writer, which is not
    among the sources; the escaped characters between two double quotes. *)
Definition WriteString (s : string) : M Writer bool :=
  Put (quoted (escaped s)) ;; ret true.

Definition WriteStartObject : M Writer bool := Put "{" ;; ret true.
Definition WriteEndObject : M Writer bool := Put "}" ;; ret true.

Definition Push (l : Level) : M Writer unit :=
  fun w => Ok (tt, mkWriter (os w) (l :: level_stack w) (hasRoot w)).

(** Modelled from the spec: the calls [Int], [String], [StartObject] and
    [Key] of the writer, which is not among the sources; each begins a
    value and appends its text to the buffer. *)
Definition Writer_Int (i : Z) : M Writer bool :=
  Prefix kNumberType ;; r <- WriteInt i ;; EndValue r.

Definition Writer_String (s : string) : M Writer bool :=
  Prefix kStringType ;; r <- WriteString s ;; EndValue r.

Definition Writer_StartObject : M Writer bool :=
  Prefix kObjectType ;; Push (mkLevel 0 false) ;; WriteStartObject.

Definition Writer_Key (s : string) : M Writer bool := Writer_String s.

(** Modelled from the spec: [EndObject] of the writer, which is not
    among the sources; the three assertions on the top level, the pop, the
    closing brace. *)
Definition Pop : M Writer unit :=
  fun w =>
    match level_stack w with
    | [] => AssertionFailed NotInsideObject
    | level :: below =>
        if inArray level then AssertionFailed InsideArray
        else if negb (N.even (valueCount level))
        then AssertionFailed KeyWithoutValue
        else Ok (tt, mkWriter (os w) below (hasRoot w))
    end.

Definition Writer_EndObject : M Writer bool :=
  Pop ;; r <- WriteEndObject ;; EndValue r.

#[global] Instance Writer_Handler : Handler Writer := {
  StartObject := Writer_StartObject;
  Key := Writer_Key;
  Int := Writer_Int;
  String_ := Writer_String;
  EndObject := Writer_EndObject
}.

(** A writer on which a value can be begun: at the root before any root
    value, inside an array, or inside an object after a name. *)
Definition accepts_value (w : Writer) : bool :=
  match level_stack w with
  | [] => negb (hasRoot w)
  | level :: _ => inArray level || N.odd (valueCount level)
  end.

(** What beginning a value leaves of the writer's position. *)
Definition begun (w : Writer) : list Level * bool :=
  match level_stack w with
  | [] => ([], true)
  | level :: below => (incr level :: below, hasRoot w)
  end.

Definition lead (w : Writer) : string :=
  match level_stack w with
  | [] => ""
  | level :: _ => separator level
  end.

End rapidjson.

(** ** A recorder of the calls *)

Inductive token : Set :=
| TStartObject
| TKey (name : string)
| TInt (i : Z)
| TString (s : string)
| TEndObject.

Module recorder.

Definition emit (t : token) : M (list token) bool :=
  fun ts => Ok (true, (ts ++ [t])%list).

#[global] Instance Recorder_Handler : Handler (list token) := {
  StartObject := emit TStartObject;
  Key := fun s => emit (TKey s);
  Int := fun i => emit (TInt i);
  String_ := fun s => emit (TString s);
  EndObject := emit TEndObject
}.

End recorder.

(** ** json/json.h *)

Module json.

(** Modelled from the spec: ss::httpd::reply::status_type, whose
    declaration is not among the sources; an enumeration over [int] that
    provides a stable integer value, its numeric code.  The embedding
    carries the underlying value. *)
Definition status_type : Set := Z.
Definition underlying (c : status_type) : Z := c.

(** Modelled from the spec: the overload of ::json::rjson_serialize for an
    enumeration, declared in json/json.h, which is not among the sources;
    the status code is written as a JSON number, the standard integer
    serialization of its underlying value. *)
Definition rjson_serialize_enum {W} `{Handler W} (v : status_type)
  : M W unit :=
  Int (underlying v) ;; ret tt.

(** Modelled from the spec: the overload of ::json::rjson_serialize for a
    string, declared in json/json.h, which is not among the sources; the
    message is written as a JSON string. *)
Definition rjson_serialize_string {W} `{Handler W} (s : string)
  : M W unit :=
  String_ s ;; ret tt.

End json.

(** ** pandaproxy::json *)

Record error_body : Set := mk_error_body {
  error_code : json.status_type;
  message : string
}.
Arguments mk_error_body error_code%_Z message%_string.

Definition rjson_serialize {W} `{Handler W} (v : error_body) : M W unit :=
  StartObject ;;
  Key "error_code" ;;
  json.rjson_serialize_enum (error_code v) ;;
  Key "message" ;;
  json.rjson_serialize_string (message v) ;;
  EndObject ;;
  ret tt.

(** The text in the buffer of a fresh writer after the call. *)
Definition serialized (v : error_body) : option string :=
  option_map rapidjson.GetString (exec (rjson_serialize v) rapidjson.fresh).

(** The calls the serializer makes, in order. *)
Definition trace (v : error_body) : option (list token) :=
  exec (rjson_serialize v) ([] : list token).

(** ** A decoder for JSON text *)

Module Decoder.

(** Modelled from the spec: the standard JSON parser that the round-trip
    property decodes the produced text with; no decoder is among the
    sources.  The decoder follows the JSON grammar: white space, the
    three literal names, numbers, strings with their escapes, arrays and
    objects whose members keep their order.  Strings are decoded to
    bytes, a \u escape to the UTF-8 bytes of its code point, and bytes
    above 127 are taken as they are.  A number is an integer: one with a
    fraction or an exponent is not decoded. *)

Inductive value : Set :=
| JNull
| JBool (b : bool)
| JNumber (z : Z)
| JString (s : string)
| JArray (elements : list value)
| JObject (members : list (string * value)).

Definition is_ws (c : ascii) : bool :=
  let n := N_of_ascii c in
  ((n =? 32) || (n =? 9) || (n =? 10) || (n =? 13))%N.

Fixpoint skip_ws (s : string) : string :=
  match s with
  | String c s' => if is_ws c then skip_ws s' else s
  | "" => ""
  end.

(** [expect lit s]: what follows [lit] at the head of [s]. *)
Fixpoint expect (lit s : string) : option string :=
  match lit, s with
  | "", _ => Some s
  | String a lit', String b s' =>
      if Ascii.eqb a b then expect lit' s' else None
  | String _ _, "" => None
  end.

(** *** Strings *)

Definition hex_value (c : ascii) : option N :=
  let n := N_of_ascii c in
  if ((48 <=? n) && (n <=? 57))%N then Some (n - 48)%N
  else if ((65 <=? n) && (n <=? 70))%N then Some (n - 55)%N
  else if ((97 <=? n) && (n <=? 102))%N then Some (n - 87)%N
  else None.

Definition unescape (e : ascii) : option ascii :=
  if Ascii.eqb e dquote then Some dquote
  else if Ascii.eqb e backslash then Some backslash
  else if Ascii.eqb e "/" then Some "/"%char
  else if Ascii.eqb e "b" then Some "008"%char
  else if Ascii.eqb e "f" then Some "012"%char
  else if Ascii.eqb e "n" then Some "010"%char
  else if Ascii.eqb e "r" then Some "013"%char
  else if Ascii.eqb e "t" then Some "009"%char
  else None.

Definition byte (n : N) : ascii := ascii_of_N (n mod 256).

(** The UTF-8 bytes of a code point. *)
Definition utf8 (cp : N) : string :=
  let cont (k : N) := byte (N.lor 0x80 (N.land (N.shiftr cp k) 0x3F)) in
  if (cp <? 0x80)%N then String (byte cp) ""
  else if (cp <? 0x800)%N then
    String (byte (N.lor 0xC0 (N.shiftr cp 6))) (String (cont 0%N) "")
  else if (cp <? 0x10000)%N then
    String (byte (N.lor 0xE0 (N.shiftr cp 12)))
      (String (cont 6%N) (String (cont 0%N) ""))
  else
    String (byte (N.lor 0xF0 (N.shiftr cp 18)))
      (String (cont 12%N) (String (cont 6%N) (String (cont 0%N) ""))).

Definition is_high (u : N) : bool := ((0xD800 <=? u) && (u <=? 0xDBFF))%N.
Definition is_low (u : N) : bool := ((0xDC00 <=? u) && (u <=? 0xDFFF))%N.

(** Where the scan of a string stands: between characters, after a
    backslash, inside the four hexadecimal digits of a \u escape (with
    the digits still due after the next one, the value so far, and the
    high surrogate the escape completes), and after a high surrogate,
    where a backslash and then the letter u are due. *)
Inductive lexer : Set :=
| Plain
| Escape
| Unicode (due : nat) (acc : N) (high : option N)
| Low1 (high : N)
| Low2 (high : N).

Definition push (pre : string) (r : option (string * string))
  : option (string * string) :=
  match r with
  | Some (d, rest) => Some (pre ++ d, rest)
  | None => None
  end.

(** The characters of a string after its opening quote: the decoded
    string and the text after the closing quote. *)
Fixpoint string_body (st : lexer) (s : string) {struct s}
  : option (string * string) :=
  match s with
  | "" => None
  | String c s' =>
      match st with
      | Plain =>
          if Ascii.eqb c dquote then Some ("", s')
          else if Ascii.eqb c backslash then string_body Escape s'
          else if (N_of_ascii c <? 32)%N then None
          else push (String c "") (string_body Plain s')
      | Escape =>
          if Ascii.eqb c "u" then string_body (Unicode 3 0 None) s'
          else
            match unescape c with
            | Some d => push (String d "") (string_body Plain s')
            | None => None
            end
      | Unicode due acc high =>
          match hex_value c with
          | None => None
          | Some h =>
              let u := (acc * 16 + h)%N in
              match due with
              | S due' => string_body (Unicode due' u high) s'
              | O =>
                  match high with
                  | None =>
                      if is_high u then string_body (Low1 u) s'
                      else if is_low u then None
                      else push (utf8 u) (string_body Plain s')
                  | Some hi =>
                      if is_low u then
                        push (utf8 (0x10000 + (hi - 0xD800) * 0x400
                                    + (u - 0xDC00))%N)
                             (string_body Plain s')
                      else None
                  end
              end
          end
      | Low1 hi =>
          if Ascii.eqb c backslash then string_body (Low2 hi) s' else None
      | Low2 hi =>
          if Ascii.eqb c "u" then string_body (Unicode 3 0 (Some hi)) s'
          else None
      end
  end.

(** *** Numbers *)

Definition digit_of (c : ascii) : option (Decimal.uint -> Decimal.uint) :=
  match N_of_ascii c with
  | 48 => Some Decimal.D0 | 49 => Some Decimal.D1 | 50 => Some Decimal.D2
  | 51 => Some Decimal.D3 | 52 => Some Decimal.D4 | 53 => Some Decimal.D5
  | 54 => Some Decimal.D6 | 55 => Some Decimal.D7 | 56 => Some Decimal.D8
  | 57 => Some Decimal.D9
  | _ => None
  end%N.

(** The longest run of digits at the head of [s], and what follows. *)
Fixpoint digits (s : string) : Decimal.uint * string :=
  match s with
  | "" => (Decimal.Nil, "")
  | String c s' =>
      match digit_of c with
      | Some d => let (ds, rest) := digits s' in (d ds, rest)
      | None => (Decimal.Nil, s)
      end
  end.

Definition starts_fraction (s : string) : bool :=
  match s with
  | String c _ => Ascii.eqb c "." || Ascii.eqb c "e" || Ascii.eqb c "E"
  | "" => false
  end.

(** An optional minus sign, then one digit or several that do not start
    with a zero. *)
Definition number (s : string) : option (Z * string) :=
  let (negative, s1) :=
    match s with
    | String c s' => if Ascii.eqb c "-" then (true, s') else (false, s)
    | "" => (false, s)
    end in
  let (ds, rest) := digits s1 in
  if Decimal.uint_beq (Decimal.unorm ds) ds && negb (starts_fraction rest)
  then Some (Z.of_int (if negative then Decimal.Neg ds else Decimal.Pos ds),
             rest)
  else None.

(** Text that a number may start, and text that continues no number:
    no digit, fraction or exponent at its head. *)
Definition starts_number (s : string) : bool :=
  match s with
  | String c _ =>
      Ascii.eqb c "-" || match digit_of c with Some _ => true | None => false end
  | "" => false
  end.

Definition ends_number (rest : string) : Prop :=
  digits rest = (Decimal.Nil, rest) /\ starts_fraction rest = false.

(** *** Values *)

Definition head_is (c : ascii) (s : string) : option string :=
  match s with
  | String a s' => if Ascii.eqb a c then Some s' else None
  | "" => None
  end.

Fixpoint parse_value (fuel : nat) (s : string) {struct fuel}
  : option (value * string) :=
  match fuel with
  | O => None
  | S fuel' =>
      match skip_ws s with
      | "" => None
      | String c s' =>
          if Ascii.eqb c "{" then
            match head_is "}" (skip_ws s') with
            | Some rest => Some (JObject [], rest)
            | None =>
                match parse_members fuel' s' with
                | Some (ms, rest) => Some (JObject ms, rest)
                | None => None
                end
            end
          else if Ascii.eqb c "[" then
            match head_is "]" (skip_ws s') with
            | Some rest => Some (JArray [], rest)
            | None =>
                match parse_elements fuel' s' with
                | Some (vs, rest) => Some (JArray vs, rest)
                | None => None
                end
            end
          else if Ascii.eqb c dquote then
            match string_body Plain s' with
            | Some (str, rest) => Some (JString str, rest)
            | None => None
            end
          else if Ascii.eqb c "t" then
            option_map (pair (JBool true)) (expect "rue" s')
          else if Ascii.eqb c "f" then
            option_map (pair (JBool false)) (expect "alse" s')
          else if Ascii.eqb c "n" then
            option_map (pair JNull) (expect "ull" s')
          else
            match number (String c s') with
            | Some (z, rest) => Some (JNumber z, rest)
            | None => None
            end
      end
  end

with parse_members (fuel : nat) (s : string) {struct fuel}
  : option (list (string * value) * string) :=
  match fuel with
  | O => None
  | S fuel' =>
      match head_is dquote (skip_ws s) with
      | None => None
      | Some s1 =>
          match string_body Plain s1 with
          | None => None
          | Some (name, s2) =>
              match head_is ":" (skip_ws s2) with
              | None => None
              | Some s3 =>
                  match parse_value fuel' s3 with
                  | None => None
                  | Some (v, s4) =>
                      match skip_ws s4 with
                      | "" => None
                      | String c s5 =>
                          if Ascii.eqb c "}" then Some ([(name, v)], s5)
                          else if Ascii.eqb c "," then
                            match parse_members fuel' s5 with
                            | Some (ms, rest) => Some ((name, v) :: ms, rest)
                            | None => None
                            end
                          else None
                      end
                  end
              end
          end
      end
  end

with parse_elements (fuel : nat) (s : string) {struct fuel}
  : option (list value * string) :=
  match fuel with
  | O => None
  | S fuel' =>
      match parse_value fuel' s with
      | None => None
      | Some (v, s1) =>
          match skip_ws s1 with
          | "" => None
          | String c s2 =>
              if Ascii.eqb c "]" then Some ([v], s2)
              else if Ascii.eqb c "," then
                match parse_elements fuel' s2 with
                | Some (vs, rest) => Some (v :: vs, rest)
                | None => None
                end
              else None
          end
      end
  end.

(** A whole text: one value, with nothing but white space after it.  The
    descent is given the length of the text, and one more, as fuel. *)
Definition parse (s : string) : option value :=
  match parse_value (S (String.length s)) s with
  | Some (v, rest) =>
      match skip_ws rest with
      | "" => Some v
      | String _ _ => None
      end
  | None => None
  end.

(** The names of the members of an object, in order, and the value of
    the first member with a given name. *)
Definition names (v : value) : list string :=
  match v with
  | JObject ms => map fst ms
  | _ => []
  end.

Fixpoint assoc (name : string) (ms : list (string * value))
  : option value :=
  match ms with
  | [] => None
  | (k, v) :: ms' => if String.eqb k name then Some v else assoc name ms'
  end.

Definition member (name : string) (v : value) : option value :=
  match v with
  | JObject ms => assoc name ms
  | _ => None
  end.

End Decoder.

Definition decoded (v : error_body) : option Decoder.value :=
  match serialized v with
  | Some text => Decoder.parse text
  | None => None
  end.

(** The member of the decoded text with a given name. *)
Definition field (name : string) (v : error_body) : option Decoder.value :=
  match decoded v with
  | Some obj => Decoder.member name obj
  | None => None
  end.

(** ** Reading a record of calls *)

(** The names given to [Key], in order. *)
Fixpoint keys (ts : list token) : list string :=
  match ts with
  | [] => []
  | TKey name :: ts' => name :: keys ts'
  | _ :: ts' => keys ts'
  end.

(** The call that follows [Key name]. *)
Fixpoint value_of (name : string) (ts : list token) : option token :=
  match ts with
  | [] => None
  | TKey k :: ts' =>
      if String.eqb k name
      then match ts' with t :: _ => Some t | [] => None end
      else value_of name ts'
  | _ :: ts' => value_of name ts'
  end.

Definition is_scalar (t : token) : bool :=
  match t with
  | TInt _ | TString _ => true
  | _ => false
  end.

(** The number of objects begun. *)
Fixpoint objects (ts : list token) : nat :=
  match ts with
  | [] => 0
  | TStartObject :: ts' => S (objects ts')
  | _ :: ts' => objects ts'
  end.

(** The number of objects left open by [ts] when [depth] are open before
    it; none when an object is ended that was not begun. *)
Fixpoint nesting (depth : nat) (ts : list token) : option nat :=
  match ts with
  | [] => Some depth
  | TStartObject :: ts' => nesting (S depth) ts'
  | TEndObject :: ts' =>
      match depth with
      | O => None
      | S depth' => nesting depth' ts'
      end
  | _ :: ts' => nesting depth ts'
  end.

(** The calls of a record, made again on a writer. *)
Definition call {W} `{Handler W} (t : token) : M W bool :=
  match t with
  | TStartObject => StartObject
  | TKey name => Key name
  | TInt i => Int i
  | TString s => String_ s
  | TEndObject => EndObject
  end.

Fixpoint replay {W} `{Handler W} (ts : list token) : M W unit :=
  match ts with
  | [] => ret tt
  | t :: ts' => call t ;; replay ts'
  end.

(** ** The call and its two references

    The serializer is called with a reference to the writer and a
    reference to a constant error body: it reads the body, and what it
    writes it writes through the writer. *)

Record store : Set := mk_store {
  the_writer : rapidjson.Writer;
  the_body : error_body
}.

Definition call_rjson_serialize (st : store) : result store :=
  match rjson_serialize (the_body st) (the_writer st) with
  | Ok (_, w') => Ok (mk_store w' (the_body st))
  | AssertionFailed e => AssertionFailed e
  end.

(** ** Text without raw control characters *)

(** The characters the JSON grammar does not allow unescaped in a string:
    the quotation mark, the reverse solidus and the control characters. *)
Definition must_escape (c : ascii) : bool :=
  (N_of_ascii c <? 32)%N || Ascii.eqb c dquote || Ascii.eqb c backslash.

(** A string none of whose characters has to be escaped. *)
Fixpoint plain (s : string) : bool :=
  match s with
  | "" => true
  | String c s' => negb (must_escape c) && plain s'
  end.

Fixpoint no_control (s : string) : bool :=
  match s with
  | "" => true
  | String c s' => (32 <=? N_of_ascii c)%N && no_control s'
  end.

(** ** The wire format

    The text of an error body as the spec gives it: an object with the
    member error_code, a number, and then the member message, a string. *)

Definition render (c : Z) (s : string) : string :=
  "{" ++ quoted "error_code" ++ ":" ++ NilZero.string_of_int (Z.to_int c)
  ++ "," ++ quoted "message" ++ ":" ++ quoted (rapidjson.escaped s) ++ "}".

(** * Properties *)

(** ** Strings *)

Lemma string_app_assoc (a b c : string) : (a ++ b) ++ c = a ++ (b ++ c).
Proof.
  induction a as [|x a IH]; simpl; [reflexivity | now rewrite IH].
Qed.

Lemma string_app_nil_r (a : string) : a ++ "" = a.
Proof.
  induction a as [|x a IH]; simpl; [reflexivity | now rewrite IH].
Qed.

Lemma quoted_app (s rest : string) :
  quoted s ++ rest = String dquote (s ++ String dquote rest).
Proof.
  unfold quoted. simpl. now rewrite string_app_assoc.
Qed.

(** A fact about one character, settled on each of the 256. *)
Ltac each_character c :=
  destruct c as [[] [] [] [] [] [] [] []].

(** ** The decoder reads back what the writer escapes *)

Section Escaping.
Import rapidjson Decoder.

Lemma string_body_WriteChar (c : ascii) (t : string) :
  string_body Plain (WriteChar c ++ t)
  = push (String c "") (string_body Plain t).
Proof.
  each_character c; reflexivity.
Qed.

Lemma string_body_escaped (s rest : string) :
  string_body Plain (escaped s ++ String dquote rest) = Some (s, rest).
Proof.
  induction s as [|c s IH].
  - reflexivity.
  - cbn [escaped]. rewrite string_app_assoc, string_body_WriteChar, IH.
    reflexivity.
Qed.

End Escaping.

(** ** The decoder reads back the digits the writer prints *)

Section Numbers.
Import Decoder.

Lemma digits_string_of_uint (d : Decimal.uint) (rest : string) :
  digits rest = (Decimal.Nil, rest) ->
  digits (NilEmpty.string_of_uint d ++ rest) = (d, rest).
Proof.
  intros Hrest.
  induction d as [|d IH|d IH|d IH|d IH|d IH|d IH|d IH|d IH|d IH|d IH];
    [exact Hrest | cbn; rewrite IH; reflexivity ..].
Qed.

Lemma uint_beq_refl (d : Decimal.uint) : Decimal.uint_beq d d = true.
Proof. induction d; simpl; auto. Qed.

Lemma unorm_to_uint (p : positive) :
  Decimal.unorm (Pos.to_uint p) = Pos.to_uint p.
Proof.
  rewrite <- (DecimalPos.Unsigned.to_of (Pos.to_uint p)).
  now rewrite DecimalPos.Unsigned.of_to.
Qed.

Lemma number_unsigned (d : Decimal.uint) (rest : string) :
  d <> Decimal.Nil -> Decimal.unorm d = d -> ends_number rest ->
  number (NilEmpty.string_of_uint d ++ rest)
  = Some (Z.of_int (Decimal.Pos d), rest).
Proof.
  intros Hd Hn [Hrest Hfrac]. unfold number.
  assert (Hhead : match NilEmpty.string_of_uint d ++ rest with
                  | String c s' =>
                      if Ascii.eqb c "-" then (true, s')
                      else (false, NilEmpty.string_of_uint d ++ rest)
                  | "" => (false, NilEmpty.string_of_uint d ++ rest)
                  end = (false, NilEmpty.string_of_uint d ++ rest)).
  { destruct d; [contradiction | reflexivity ..]. }
  rewrite Hhead, (digits_string_of_uint d rest Hrest), Hn.
  now rewrite uint_beq_refl, Hfrac.
Qed.

Lemma number_string_of_int (z : Z) (rest : string) :
  ends_number rest ->
  number (NilZero.string_of_int (Z.to_int z) ++ rest) = Some (z, rest).
Proof.
  intros Hrest. rewrite <- (DecimalZ.of_to z) at 2.
  destruct z as [|p|p].
  - apply (number_unsigned (Decimal.D0 Decimal.Nil) rest);
      [discriminate | reflexivity | exact Hrest].
  - cbn [Z.to_int NilZero.string_of_int].
    assert (Hnil := DecimalPos.Unsigned.to_uint_nonnil p).
    replace (NilZero.string_of_uint (Pos.to_uint p))
      with (NilEmpty.string_of_uint (Pos.to_uint p))
      by (unfold NilZero.string_of_uint;
          destruct (Pos.to_uint p); [contradiction | reflexivity ..]).
    apply number_unsigned; [exact Hnil | apply unorm_to_uint | exact Hrest].
  - cbn [Z.to_int NilZero.string_of_int].
    assert (Hnil := DecimalPos.Unsigned.to_uint_nonnil p).
    replace (NilZero.string_of_uint (Pos.to_uint p))
      with (NilEmpty.string_of_uint (Pos.to_uint p))
      by (unfold NilZero.string_of_uint;
          destruct (Pos.to_uint p); [contradiction | reflexivity ..]).
    destruct Hrest as [Hrest Hfrac]. unfold number.
    cbn [append Ascii.eqb Bool.eqb].
    rewrite (digits_string_of_uint _ rest Hrest), unorm_to_uint.
    now rewrite uint_beq_refl, Hfrac.
Qed.

End Numbers.

(** ** The run of the serializer on the byte writer *)

Section Run.
Import rapidjson.

(** Where [Prefix] lets a value begin, and what it leaves. *)
Lemma Prefix_value (type : Type_) (w : Writer) :
  accepts_value w = true ->
  Prefix type w
  = Ok (tt, mkWriter (os w ++ lead w) (fst (begun w)) (snd (begun w))).
Proof.
  destruct w as [buf [|[count array] below] root];
    unfold accepts_value, Prefix, lead, begun;
    cbn [level_stack hasRoot os inArray valueCount fst snd].
  - destruct root; [discriminate|]. now rewrite string_app_nil_r.
  - intros Hacc. destruct array; [reflexivity|].
    cbn in Hacc. rewrite <- N.negb_odd, Hacc. reflexivity.
Qed.

Lemma Prefix_refused (type : Type_) (w : Writer) :
  is_kStringType type = false -> accepts_value w = false ->
  exists e, Prefix type w = AssertionFailed e.
Proof.
  destruct w as [buf [|[count array] below] root];
    unfold accepts_value, Prefix;
    cbn [level_stack hasRoot os inArray valueCount].
  - destruct root; [eauto | discriminate].
  - intros -> Hacc. apply orb_false_elim in Hacc as [-> Hodd].
    rewrite <- N.negb_odd, Hodd. cbn. eauto.
Qed.

(** The members and the closing brace, in a level that has just been
    opened. *)
Lemma members_written (v : error_body) (buf : string)
      (stack : list Level) (root : bool) :
  (Key "error_code" ;;
   json.rjson_serialize_enum (error_code v) ;;
   Key "message" ;;
   json.rjson_serialize_string (message v) ;;
   EndObject ;;
   ret tt) (mkWriter (buf ++ "{") (mkLevel 0 false :: stack) root)
  = Ok (tt, mkWriter (buf ++ render (error_code v) (message v)) stack root).
Proof.
  unfold render. cbn. rewrite !string_app_assoc. cbn.
  rewrite !string_app_assoc. reflexivity.
Qed.

Lemma rjson_serialize_accepted (v : error_body) (w : Writer) :
  accepts_value w = true ->
  rjson_serialize v w
  = Ok (tt, mkWriter (os w ++ lead w ++ render (error_code v) (message v))
                     (fst (begun w)) (snd (begun w))).
Proof.
  intros Hacc. unfold rjson_serialize.
  unfold bind at 1. cbn [StartObject Writer_Handler].
  unfold Writer_StartObject, bind at 1.
  rewrite (Prefix_value _ _ Hacc).
  unfold bind at 1, Push, WriteStartObject, bind at 1, Put, ret.
  cbn [os level_stack hasRoot].
  rewrite members_written. now rewrite !string_app_assoc.
Qed.

Lemma rjson_serialize_refused (v : error_body) (w : Writer) :
  accepts_value w = false ->
  exists e, StartObject w = AssertionFailed e
            /\ rjson_serialize v w = AssertionFailed e.
Proof.
  intros Hacc.
  destruct (Prefix_refused kObjectType w eq_refl Hacc) as [e He].
  assert (Hstart : StartObject w = AssertionFailed e).
  { cbn [StartObject Writer_Handler]. unfold Writer_StartObject, bind at 1.
    now rewrite He. }
  exists e. split; [exact Hstart|].
  unfold rjson_serialize, bind at 1. now rewrite Hstart.
Qed.

Lemma serialized_render (v : error_body) :
  serialized v = Some (render (error_code v) (message v)).
Proof.
  unfold serialized, exec.
  now rewrite (rjson_serialize_accepted v fresh eq_refl).
Qed.

End Run.

(** ** The decoder reads back the text of an error body *)

Section Decoding.
Import Decoder.

Lemma starts_number_string_of_int (z : Z) (rest : string) :
  starts_number (NilZero.string_of_int (Z.to_int z) ++ rest) = true.
Proof.
  destruct z as [|p|p]; [reflexivity | | reflexivity].
  cbn [Z.to_int NilZero.string_of_int].
  assert (Hnil := DecimalPos.Unsigned.to_uint_nonnil p).
  destruct (Pos.to_uint p); [contradiction | reflexivity ..].
Qed.

Lemma parse_value_number (fuel : nat) (t : string) (z : Z) (rest : string) :
  starts_number t = true -> number t = Some (z, rest) ->
  parse_value (S fuel) t = Some (JNumber z, rest).
Proof.
  destruct t as [|c t]; [discriminate|].
  each_character c; try discriminate;
    intros _ Hnum; cbn; cbn in Hnum; rewrite Hnum; reflexivity.
Qed.

Lemma skip_ws_head (c : ascii) (t : string) :
  is_ws c = false -> skip_ws (String c t) = String c t.
Proof. intros H. cbn [skip_ws]. now rewrite H. Qed.

(** One step of the descent, at an object, at a string and at a
    member. *)
Lemma parse_value_object (fuel : nat) (s : string) :
  parse_value (S fuel) (String "{" s)
  = match head_is "}" (skip_ws s) with
    | Some rest => Some (JObject [], rest)
    | None =>
        match parse_members fuel s with
        | Some (ms, rest) => Some (JObject ms, rest)
        | None => None
        end
    end.
Proof. reflexivity. Qed.

Lemma parse_value_string (fuel : nat) (s : string) :
  parse_value (S fuel) (String dquote s)
  = match string_body Plain s with
    | Some (str, rest) => Some (JString str, rest)
    | None => None
    end.
Proof. reflexivity. Qed.

Lemma parse_members_member (fuel : nat) (s s2 s4 : string)
      (name : string) (v : value) :
  string_body Plain s = Some (name, String ":" s2) ->
  parse_value fuel s2 = Some (v, s4) ->
  parse_members (S fuel) (String dquote s)
  = match skip_ws s4 with
    | "" => None
    | String c s5 =>
        if Ascii.eqb c "}" then Some ([(name, v)], s5)
        else if Ascii.eqb c "," then
          match parse_members fuel s5 with
          | Some (ms, rest) => Some ((name, v) :: ms, rest)
          | None => None
          end
        else None
    end.
Proof.
  intros Hname Hvalue. cbn [parse_members].
  change (head_is dquote (skip_ws (String dquote s))) with (Some s).
  cbv iota beta. rewrite Hname.
  change (head_is ":" (skip_ws (String ":" s2))) with (Some s2).
  cbv iota beta. now rewrite Hvalue.
Qed.

Lemma parse_value_render (c : Z) (s : string) (fuel : nat) (rest : string) :
  parse_value (4 + fuel) (render c s ++ rest)
  = Some (JObject [("error_code", JNumber c); ("message", JString s)],
          rest).
Proof.
  unfold render. rewrite !string_app_assoc, !quoted_app.
  cbn [append plus]. rewrite parse_value_object.
  change (head_is "}" (skip_ws (String dquote ?t))) with (@None string).
  cbv iota beta.
  erewrite parse_members_member;
    [ | reflexivity
      | apply parse_value_number;
        [ apply starts_number_string_of_int
        | apply number_string_of_int; split; reflexivity ] ].
  rewrite skip_ws_head by reflexivity.
  cbn [Ascii.eqb Bool.eqb andb]. cbv iota.
  erewrite parse_members_member;
    [ | reflexivity
      | rewrite parse_value_string, string_body_escaped; reflexivity ].
  rewrite skip_ws_head by reflexivity. reflexivity.
Qed.

Lemma parse_render (c : Z) (s : string) :
  parse (render c s)
  = Some (JObject [("error_code", JNumber c); ("message", JString s)]).
Proof.
  unfold parse.
  assert (Hfuel : exists fuel,
             S (String.length (render c s)) = 4 + fuel).
  { unfold render. cbn. eauto. }
  destruct Hfuel as [fuel ->].
  rewrite <- (string_app_nil_r (render c s)) at 1.
  now rewrite parse_value_render.
Qed.

Lemma decoded_error_body (v : error_body) :
  decoded v
  = Some (JObject [("error_code", JNumber (error_code v));
                   ("message", JString (message v))]).
Proof.
  unfold decoded. rewrite serialized_render. apply parse_render.
Qed.

End Decoding.

(** ** The run of the serializer on the recorder *)

Lemma rjson_serialize_recorded (v : error_body) (ts : list token) :
  rjson_serialize v ts
  = Ok (tt, (ts ++ [TStartObject; TKey "error_code";
                    TInt (json.underlying (error_code v));
                    TKey "message"; TString (message v); TEndObject])%list).
Proof.
  unfold rjson_serialize. cbn. now rewrite <- !app_assoc.
Qed.

Lemma trace_calls (v : error_body) :
  trace v = Some [TStartObject; TKey "error_code";
                  TInt (json.underlying (error_code v));
                  TKey "message"; TString (message v); TEndObject].
Proof.
  unfold trace, exec. now rewrite rjson_serialize_recorded.
Qed.

(** The record of the calls, made again on any writer, is the run of the
    serializer on that writer. *)
Lemma replay_calls {W} `{Handler W} (v : error_body) (w : W) :
  replay [TStartObject; TKey "error_code";
          TInt (json.underlying (error_code v));
          TKey "message"; TString (message v); TEndObject] w
  = rjson_serialize v w.
Proof.
  unfold rjson_serialize, replay, call, json.rjson_serialize_enum,
    json.rjson_serialize_string, bind, ret.
  repeat match goal with
         | |- context [match ?c ?x with Ok _ => _ | AssertionFailed _ => _ end] =>
             destruct (c x) as [[? ?]|]; try reflexivity
         end.
Qed.

Lemma field_error_code (v : error_body) :
  field "error_code" v = Some (Decoder.JNumber (json.underlying (error_code v))).
Proof. unfold field. now rewrite decoded_error_body. Qed.

Lemma field_message (v : error_body) :
  field "message" v = Some (Decoder.JString (message v)).
Proof. unfold field. now rewrite decoded_error_body. Qed.

(** ** The escaped text *)

Lemma no_control_app (a b : string) :
  no_control (a ++ b) = no_control a && no_control b.
Proof.
  induction a as [|c a IH]; cbn [append no_control];
    [reflexivity | now rewrite IH, andb_assoc].
Qed.

Lemma no_control_WriteChar (c : ascii) :
  no_control (rapidjson.WriteChar c) = true.
Proof. each_character c; reflexivity. Qed.

Lemma WriteChar_must_escape (c : ascii) :
  if must_escape c
  then exists t, rapidjson.WriteChar c = String backslash t
  else rapidjson.WriteChar c = String c "".
Proof. each_character c; cbn; eauto. Qed.

Lemma no_control_escaped (s : string) :
  no_control (rapidjson.escaped s) = true.
Proof.
  induction s as [|c s IH]; [reflexivity|].
  cbn [rapidjson.escaped]. now rewrite no_control_app, no_control_WriteChar.
Qed.

(** * The error body on the wire *)

(** C1.  For every status code [c] and every string [s], serializing the
    error body of [c] and [s] emits exactly one JSON object with exactly
    two keys, error_code and message, in that order and with no other key:
    the calls begin one object and name those two keys, and the text, read
    back, is one object with those two members. *)
Theorem rjson_serialize_two_keys (c : json.status_type) (s : string) :
  option_map keys (trace (mk_error_body c s)) = Some ["error_code"; "message"]
  /\ option_map objects (trace (mk_error_body c s)) = Some 1
  /\ option_map Decoder.names (decoded (mk_error_body c s))
     = Some ["error_code"; "message"]
  /\ exists a b,
      decoded (mk_error_body c s)
      = Some (Decoder.JObject [("error_code", a); ("message", b)]).
Proof.
  rewrite trace_calls, decoded_error_body. cbn.
  repeat split; eauto.
Qed.

(** C2.  For every error body, the value written under the key error_code
    is a JSON number equal to the underlying integer of the status code,
    not a JSON string: the call after the key is [Int] with that integer,
    the text after the key is its decimal form without quotes, and the
    member, read back, is that number. *)
Theorem error_code_is_number (v : error_body) :
  option_map (value_of "error_code") (trace v)
  = Some (Some (TInt (json.underlying (error_code v))))
  /\ (exists tail,
       serialized v
       = Some ("{" ++ quoted "error_code" ++ ":"
               ++ NilZero.string_of_int
                    (Z.to_int (json.underlying (error_code v)))
               ++ "," ++ tail))
  /\ field "error_code" v
     = Some (Decoder.JNumber (json.underlying (error_code v))).
Proof.
  rewrite trace_calls, serialized_render, field_error_code.
  repeat split. unfold render. eauto.
Qed.

(** C3.  For every error body, the value written under the key message is
    a JSON string that carries the message with the standard escaping: the
    call after the key is [String] with the message, the text is the
    escaped message between quotes, every control character, double quote
    and backslash is written as an escape that a backslash begins and
    every other character as itself, the escaped message holds no raw
    control character, and the escaped text decodes back to exactly the
    message. *)
Theorem message_is_escaped_string (v : error_body) :
  option_map (value_of "message") (trace v)
  = Some (Some (TString (message v)))
  /\ serialized v
     = Some ("{" ++ quoted "error_code" ++ ":"
             ++ NilZero.string_of_int (Z.to_int (error_code v))
             ++ "," ++ quoted "message" ++ ":"
             ++ quoted (rapidjson.escaped (message v)) ++ "}")
  /\ (forall c,
       if must_escape c
       then exists t, rapidjson.WriteChar c = String backslash t
       else rapidjson.WriteChar c = String c "")
  /\ no_control (rapidjson.escaped (message v)) = true
  /\ rapidjson.WriteChar dquote = String backslash (String dquote "")
  /\ rapidjson.WriteChar backslash = String backslash (String backslash "")
  /\ rapidjson.WriteChar "010" = String backslash "n"
  /\ rapidjson.WriteChar "031" = String backslash "u001F"
  /\ rapidjson.escaped (quoted "quoted")
     = String backslash (String dquote "quoted")
       ++ String backslash (String dquote "")
  /\ (forall rest,
       Decoder.string_body Decoder.Plain
         (rapidjson.escaped (message v) ++ String dquote rest)
       = Some (message v, rest))
  /\ field "message" v = Some (Decoder.JString (message v)).
Proof.
  rewrite trace_calls, serialized_render, field_message, no_control_escaped.
  repeat split.
  - apply WriteChar_must_escape.
  - apply string_body_escaped.
Qed.

(** C4.  For every error body, neither key is left out, whatever the
    fields hold: both members are in the text, an empty message is written
    as an empty string and the status code 0, like any other integer, as a
    plain number. *)
Theorem no_key_omitted (c : json.status_type) (s : string) :
  option_map keys (trace (mk_error_body c s)) = Some ["error_code"; "message"]
  /\ field "error_code" (mk_error_body c s) = Some (Decoder.JNumber c)
  /\ field "message" (mk_error_body c s) = Some (Decoder.JString s)
  /\ serialized (mk_error_body c "")
     = Some ("{" ++ quoted "error_code" ++ ":"
             ++ NilZero.string_of_int (Z.to_int c)
             ++ "," ++ quoted "message" ++ ":" ++ quoted "" ++ "}")
  /\ serialized (mk_error_body 0 s)
     = Some ("{" ++ quoted "error_code" ++ ":0,"
             ++ quoted "message" ++ ":" ++ quoted (rapidjson.escaped s)
             ++ "}")
  /\ serialized (mk_error_body 0 "")
     = Some ("{" ++ quoted "error_code" ++ ":0,"
             ++ quoted "message" ++ ":" ++ quoted "" ++ "}")
  /\ serialized (mk_error_body 999 "")
     = Some ("{" ++ quoted "error_code" ++ ":999,"
             ++ quoted "message" ++ ":" ++ quoted "" ++ "}").
Proof.
  rewrite trace_calls, field_error_code, field_message, !serialized_render.
  repeat split.
Qed.

(** C5.  Round trip: for every status code [c] and every string [s], the
    text of the error body of [c] and [s], read by the decoder, is an
    object whose error_code is [c] and whose message is exactly [s]. *)
Theorem round_trip (c : json.status_type) (s : string) :
  decoded (mk_error_body c s)
  = Some (Decoder.JObject
            [("error_code", Decoder.JNumber c); ("message", Decoder.JString s)])
  /\ field "error_code" (mk_error_body c s) = Some (Decoder.JNumber c)
  /\ field "message" (mk_error_body c s) = Some (Decoder.JString s).
Proof.
  rewrite decoded_error_body, field_error_code, field_message.
  repeat split.
Qed.

(** C6.  Determinism: two error bodies with the same two fields,
    serialized into writers in the same state, leave the same result, and
    into fresh writers the same bytes, which are the wire format of the
    two fields. *)
Theorem serialization_deterministic
        (v1 v2 : error_body) (w1 w2 : rapidjson.Writer) :
  error_code v1 = error_code v2 -> message v1 = message v2 -> w1 = w2 ->
  rjson_serialize v1 w1 = rjson_serialize v2 w2
  /\ serialized v1 = serialized v2
  /\ serialized v1 = Some (render (error_code v1) (message v1)).
Proof.
  destruct v1 as [c1 s1], v2 as [c2 s2]. cbn [error_code message].
  intros -> -> ->. repeat split. apply serialized_render.
Qed.

Lemma serialization_deterministic_witness :
  error_code (mk_error_body 404 "topic not found")
  = error_code (mk_error_body 404 "topic not found")
  /\ message (mk_error_body 404 "topic not found")
     = message (mk_error_body 404 "topic not found")
  /\ rapidjson.fresh = rapidjson.fresh
  /\ (rjson_serialize (mk_error_body 404 "topic not found") rapidjson.fresh
      = rjson_serialize (mk_error_body 404 "topic not found") rapidjson.fresh
      /\ serialized (mk_error_body 404 "topic not found")
         = serialized (mk_error_body 404 "topic not found")
      /\ serialized (mk_error_body 404 "topic not found")
         = Some (render 404 "topic not found")).
Proof.
  repeat (split; [reflexivity|]).
  apply (serialization_deterministic
           (mk_error_body 404 "topic not found")
           (mk_error_body 404 "topic not found")
           rapidjson.fresh rapidjson.fresh); reflexivity.
Defined.

(** C7.  The two scenarios of the spec: the error body of 400 and
    Bad Request, and the error body of 500 and the empty message, are
    written as exactly the bytes the spec gives.  The bytes are given
    twice, as text in which the character of code 34 is the double quote,
    and as the codes of the bytes. *)
Theorem concrete_scenarios :
  serialized (mk_error_body 400 "Bad Request")
  = Some (String "{" (String "034" ("error_code" ++ String "034" (":400,"
          ++ String "034" ("message" ++ String "034" (":"
          ++ String "034" ("Bad Request" ++ String "034" "}")))))))
  /\ option_map (fun text => map N_of_ascii (list_ascii_of_string text))
       (serialized (mk_error_body 400 "Bad Request"))
     = Some [123; 34; 101; 114; 114; 111; 114; 95; 99; 111; 100; 101;
             34; 58; 52; 48; 48; 44; 34; 109; 101; 115; 115; 97; 103;
             101; 34; 58; 34; 66; 97; 100; 32; 82; 101; 113; 117; 101;
             115; 116; 34; 125]%N
  /\ serialized (mk_error_body 500 "")
     = Some (String "{" (String "034" ("error_code" ++ String "034" (":500,"
             ++ String "034" ("message" ++ String "034" (":"
             ++ String "034" (String "034" "}")))))))
  /\ option_map (fun text => map N_of_ascii (list_ascii_of_string text))
       (serialized (mk_error_body 500 ""))
     = Some [123; 34; 101; 114; 114; 111; 114; 95; 99; 111; 100; 101;
             34; 58; 53; 48; 48; 44; 34; 109; 101; 115; 115; 97; 103;
             101; 34; 58; 34; 34; 125]%N.
Proof. repeat split; reflexivity. Qed.

(** C8.  Frame: a call that returns leaves the error body as it was, both
    fields unchanged, and changes the writer only: the buffer is what it
    held, then the separator the writer puts before a value, then the
    object; the open levels are the ones before the call, the top one
    having counted one more value; the root is marked as written.  A call
    that does not return was made on a writer that takes no value. *)
Theorem rjson_serialize_frame (st : store) :
  match call_rjson_serialize st with
  | Ok st' =>
      the_body st' = the_body st
      /\ error_code (the_body st') = error_code (the_body st)
      /\ message (the_body st') = message (the_body st)
      /\ rapidjson.os (the_writer st')
         = rapidjson.os (the_writer st) ++ rapidjson.lead (the_writer st)
           ++ render (error_code (the_body st)) (message (the_body st))
      /\ rapidjson.level_stack (the_writer st')
         = fst (rapidjson.begun (the_writer st))
      /\ rapidjson.hasRoot (the_writer st')
         = snd (rapidjson.begun (the_writer st))
      /\ tl (rapidjson.level_stack (the_writer st'))
         = tl (rapidjson.level_stack (the_writer st))
  | AssertionFailed _ => rapidjson.accepts_value (the_writer st) = false
  end.
Proof.
  destruct st as [w v]. unfold call_rjson_serialize. cbn [the_writer the_body].
  destruct (rapidjson.accepts_value w) eqn:Hacc.
  - rewrite (rjson_serialize_accepted v w Hacc). cbn [the_writer the_body].
    repeat split. unfold rapidjson.begun.
    now destruct (rapidjson.level_stack w).
  - destruct (rjson_serialize_refused v w Hacc) as [e [_ ->]]. reflexivity.
Qed.

(** C9.  Totality: on every writer that takes a value the call returns,
    for every error body; on a writer that takes none it stops at the
    assertion of the writer that its first call, [StartObject], stops at,
    and has no failure of its own. *)
Theorem rjson_serialize_total (v : error_body) (w : rapidjson.Writer) :
  if rapidjson.accepts_value w
  then exists w', rjson_serialize v w = Ok (tt, w')
  else exists e, StartObject w = AssertionFailed e
                 /\ rjson_serialize v w = AssertionFailed e.
Proof.
  destruct (rapidjson.accepts_value w) eqn:Hacc.
  - rewrite (rjson_serialize_accepted v w Hacc). eauto.
  - apply rjson_serialize_refused, Hacc.
Qed.

(** C10.  The calls made on the writer are exactly [StartObject], [Key]
    of error_code, one scalar, [Key] of message, one scalar and
    [EndObject], and those calls made again on the byte writer are the run
    of the serializer; the object begun is ended, so no object is left
    open: the byte writer has as many open levels after the call as before
    it, and a fresh writer has written its one root value. *)
Theorem token_sequence (v : error_body) :
  trace v = Some [TStartObject; TKey "error_code";
                  TInt (json.underlying (error_code v));
                  TKey "message"; TString (message v); TEndObject]
  /\ is_scalar (TInt (json.underlying (error_code v))) = true
  /\ is_scalar (TString (message v)) = true
  /\ option_map (nesting 0) (trace v) = Some (Some 0)
  /\ option_map objects (trace v) = Some 1
  /\ (forall w : rapidjson.Writer,
       replay [TStartObject; TKey "error_code";
               TInt (json.underlying (error_code v));
               TKey "message"; TString (message v); TEndObject] w
       = rjson_serialize v w)
  /\ (forall w : rapidjson.Writer,
       match exec (rjson_serialize v) w with
       | Some w' =>
           List.length (rapidjson.level_stack w')
           = List.length (rapidjson.level_stack w)
       | None => rapidjson.accepts_value w = false
       end)
  /\ exec (rjson_serialize v) rapidjson.fresh
     = Some (rapidjson.mkWriter (render (error_code v) (message v)) [] true).
Proof.
  rewrite trace_calls. repeat split.
  - intros w. apply replay_calls.
  - intros w. unfold exec. destruct (rapidjson.accepts_value w) eqn:Hacc.
    + rewrite (rjson_serialize_accepted v w Hacc). unfold rapidjson.begun.
      now destruct (rapidjson.level_stack w).
    + now destruct (rjson_serialize_refused v w Hacc) as [e [_ ->]].
  - unfold exec.
    now rewrite (rjson_serialize_accepted v rapidjson.fresh eq_refl).
Qed.


(** * The serializer among other calls on the writer *)

(** ** Strings and levels *)

Lemma string_app_inv_head (a b c : string) : a ++ b = a ++ c -> b = c.
Proof.
  induction a as [|x a IH]; cbn [append]; intros H;
    [exact H | injection H as H; auto].
Qed.

Lemma string_length_app (a b : string) :
  String.length (a ++ b) = String.length a + String.length b.
Proof.
  induction a as [|x a IH]; cbn [append String.length];
    [reflexivity | now rewrite IH].
Qed.

Section Levels.
Import rapidjson.

Lemma incr_below_max (l : Level) :
  (valueCount l < size_max)%N ->
  incr l = mkLevel (valueCount l + 1) (inArray l).
Proof.
  intros Hlt. unfold incr. f_equal. apply N.mod_small.
  unfold size_max in *. lia.
Qed.

(** Counting one more value changes the parity of the count, also when the
    count wraps around. *)
Lemma odd_incr (l : Level) :
  N.odd (valueCount (incr l)) = negb (N.odd (valueCount l)).
Proof.
  unfold incr. cbn [valueCount].
  change (size_max + 1)%N with (2 ^ 64)%N.
  rewrite <- !N.bit0_odd, N.mod_pow2_bits_low by reflexivity.
  rewrite !N.bit0_odd, N.add_1_r, N.odd_succ. symmetry. apply N.negb_odd.
Qed.

End Levels.

(** ** The text and the fields *)

Lemma render_injective (c1 c2 : Z) (s1 s2 : string) :
  render c1 s1 = render c2 s2 -> c1 = c2 /\ s1 = s2.
Proof.
  intros H. apply (f_equal Decoder.parse) in H.
  rewrite !parse_render in H. injection H as Hc Hs. now split.
Qed.

Lemma escaped_plain (s : string) :
  plain s = true -> rapidjson.escaped s = s.
Proof.
  induction s as [|c s IH]; [reflexivity|].
  cbn [plain rapidjson.escaped]. intros H.
  apply andb_prop in H as [Hc Hs]. apply negb_true_iff in Hc.
  generalize (WriteChar_must_escape c). rewrite Hc. intros ->.
  now rewrite IH.
Qed.

Lemma no_control_string_of_int (d : Decimal.signed_int) :
  no_control (NilZero.string_of_int d) = true.
Proof.
  assert (Hu : forall u, no_control (NilEmpty.string_of_uint u) = true)
    by (induction u; cbn; auto).
  assert (Hz : forall u, no_control (NilZero.string_of_uint u) = true)
    by (intros u; destruct u; try reflexivity; apply Hu).
  destruct d as [u|u]; cbn [NilZero.string_of_int no_control];
    [apply Hz | now rewrite Hz].
Qed.

Lemma length_WriteChar (c : ascii) :
  1 <= String.length (rapidjson.WriteChar c) <= 6.
Proof. each_character c; cbn; lia. Qed.

Lemma length_escaped (s : string) :
  String.length s <= String.length (rapidjson.escaped s)
  <= 6 * String.length s.
Proof.
  induction s as [|c s IH]; cbn [rapidjson.escaped String.length]; [lia|].
  rewrite string_length_app. generalize (length_WriteChar c). lia.
Qed.

(** X1.  Two error bodies that leave the same text in a writer that takes
    a value have the same status code and the same message: no two error
    bodies share a text. *)
Theorem rjson_serialize_injective
        (v1 v2 : error_body) (w : rapidjson.Writer) :
  rapidjson.accepts_value w = true ->
  option_map rapidjson.GetString (exec (rjson_serialize v1) w)
  = option_map rapidjson.GetString (exec (rjson_serialize v2) w) ->
  v1 = v2.
Proof.
  intros Hacc. unfold exec.
  rewrite !(rjson_serialize_accepted _ w Hacc).
  cbn [option_map rapidjson.GetString rapidjson.os]. intros H.
  injection H as H. do 2 apply string_app_inv_head in H.
  apply render_injective in H as [Hc Hs].
  destruct v1, v2; cbn [error_code message] in *. now subst.
Qed.

Lemma rjson_serialize_injective_witness :
  rapidjson.accepts_value rapidjson.fresh = true
  /\ option_map rapidjson.GetString
       (exec (rjson_serialize (mk_error_body 404 "topic not found"))
             rapidjson.fresh)
     = option_map rapidjson.GetString
         (exec (rjson_serialize (mk_error_body 404 "topic not found"))
               rapidjson.fresh)
  /\ mk_error_body 404 "topic not found" = mk_error_body 404 "topic not found".
Proof.
  split; [reflexivity|]. split; [reflexivity|].
  apply (rjson_serialize_injective
           (mk_error_body 404 "topic not found")
           (mk_error_body 404 "topic not found") rapidjson.fresh);
    reflexivity.
Defined.

(** X2.  A message none of whose characters is a control character, a
    double quote or a backslash is written as it is, between two double
    quotes (the character of code 34), as the value of message. *)
Theorem plain_message_verbatim (c : json.status_type) (s : string) :
  plain s = true ->
  serialized (mk_error_body c s)
  = Some (String "{" (String "034" ("error_code" ++ String "034" (":"
          ++ NilZero.string_of_int (Z.to_int c) ++ ","
          ++ String "034" ("message" ++ String "034" (":"
          ++ String "034" (s ++ String "034" "}"))))))).
Proof.
  intros Hplain. rewrite serialized_render. unfold render, quoted.
  cbn [error_code message]. rewrite (escaped_plain s Hplain).
  cbn [append]. now rewrite !string_app_assoc.
Qed.

Lemma plain_message_verbatim_witness :
  plain "topic not found" = true
  /\ serialized (mk_error_body 404 "topic not found")
     = Some (String "{" (String "034" ("error_code" ++ String "034" (":"
             ++ NilZero.string_of_int (Z.to_int 404) ++ ","
             ++ String "034" ("message" ++ String "034" (":"
             ++ String "034" ("topic not found" ++ String "034" "}"))))))).
Proof.
  split; [reflexivity|].
  apply (plain_message_verbatim 404%Z "topic not found"). reflexivity.
Defined.

(** X3.  The text of an error body holds no raw control character,
    whatever the message holds: it is one line. *)
Theorem serialized_one_line (v : error_body) :
  option_map no_control (serialized v) = Some true.
Proof.
  rewrite serialized_render. cbn [option_map]. f_equal.
  unfold render, quoted. cbn [append no_control].
  rewrite !no_control_app, no_control_string_of_int. cbn [no_control andb].
  rewrite !no_control_app, no_control_escaped. reflexivity.
Qed.

(** X4.  The text of an error body is 28 characters, the digits of the
    status code with its sign, and the escaped message, which is at least
    as long as the message and at most six times as long. *)
Theorem serialized_length (v : error_body) :
  option_map String.length (serialized v)
  = Some (28 + String.length (NilZero.string_of_int (Z.to_int (error_code v)))
          + String.length (rapidjson.escaped (message v)))
  /\ String.length (message v)
     <= String.length (rapidjson.escaped (message v))
     <= 6 * String.length (message v).
Proof.
  split; [|apply length_escaped].
  rewrite serialized_render. cbn [option_map]. f_equal.
  unfold render, quoted. cbn [append String.length].
  rewrite !string_length_app. cbn [append String.length].
  rewrite !string_length_app. cbn [String.length]. lia.
Qed.

(** ** One call after another *)

(** X5.  Inside an array, two calls in a row write the two objects with a
    comma between them, after the separator the array is due, and the
    array has counted two more elements. *)
Theorem rjson_serialize_twice_in_array
        (v1 v2 : error_body) (w : rapidjson.Writer)
        (l : rapidjson.Level) (below : list rapidjson.Level) :
  rapidjson.level_stack w = l :: below ->
  rapidjson.inArray l = true ->
  (rapidjson.valueCount l + 1 < rapidjson.size_max)%N ->
  (rjson_serialize v1 ;; rjson_serialize v2) w
  = Ok (tt, rapidjson.mkWriter
              (rapidjson.os w ++ rapidjson.separator l
               ++ render (error_code v1) (message v1) ++ ","
               ++ render (error_code v2) (message v2))
              (rapidjson.mkLevel (rapidjson.valueCount l + 2) true :: below)
              (rapidjson.hasRoot w)).
Proof.
  intros Hstack Harray Hcount.
  assert (Hacc : rapidjson.accepts_value w = true)
    by (unfold rapidjson.accepts_value; now rewrite Hstack, Harray).
  unfold bind at 1. rewrite (rjson_serialize_accepted v1 w Hacc).
  unfold rapidjson.lead, rapidjson.begun. rewrite Hstack. cbn [fst snd].
  rewrite incr_below_max by lia. rewrite Harray.
  rewrite rjson_serialize_accepted by reflexivity.
  unfold rapidjson.lead, rapidjson.begun.
  cbn [rapidjson.level_stack rapidjson.os rapidjson.hasRoot fst snd].
  rewrite incr_below_max by (cbn [rapidjson.valueCount]; lia).
  cbn [rapidjson.valueCount rapidjson.inArray].
  unfold rapidjson.separator at 2. cbn [rapidjson.valueCount rapidjson.inArray].
  replace (0 <? rapidjson.valueCount l + 1)%N with true
    by (symmetry; apply N.ltb_lt; lia).
  rewrite !string_app_assoc.
  now replace (rapidjson.valueCount l + 1 + 1)%N
    with (rapidjson.valueCount l + 2)%N by lia.
Qed.

Lemma rjson_serialize_twice_in_array_witness :
  rapidjson.level_stack
    (rapidjson.mkWriter "[" [rapidjson.mkLevel 0 true] true)
  = [rapidjson.mkLevel 0 true]
  /\ rapidjson.inArray (rapidjson.mkLevel 0 true) = true
  /\ (rapidjson.valueCount (rapidjson.mkLevel 0 true) + 1
      < rapidjson.size_max)%N
  /\ (rjson_serialize (mk_error_body 400 "a") ;;
      rjson_serialize (mk_error_body 404 "b"))
       (rapidjson.mkWriter "[" [rapidjson.mkLevel 0 true] true)
     = Ok (tt, rapidjson.mkWriter
                 ("[" ++ rapidjson.separator (rapidjson.mkLevel 0 true)
                  ++ render 400 "a" ++ "," ++ render 404 "b")
                 [rapidjson.mkLevel (0 + 2) true] true).
Proof.
  split; [reflexivity|]. split; [reflexivity|]. split; [reflexivity|].
  apply (rjson_serialize_twice_in_array
           (mk_error_body 400 "a") (mk_error_body 404 "b")
           (rapidjson.mkWriter "[" [rapidjson.mkLevel 0 true] true)
           (rapidjson.mkLevel 0 true) []); reflexivity.
Defined.

(** X7.  After a name in an enclosing object, the error body is written
    as the value of that name, after a colon, and the enclosing object can
    then be ended: the call leaves it with a value for every name. *)
Theorem rjson_serialize_as_member
        (v : error_body) (w : rapidjson.Writer)
        (l : rapidjson.Level) (below : list rapidjson.Level) :
  rapidjson.level_stack w = l :: below ->
  rapidjson.inArray l = false ->
  N.odd (rapidjson.valueCount l) = true ->
  (rjson_serialize v ;; EndObject) w
  = Ok (true, rapidjson.mkWriter
                (rapidjson.os w ++ ":"
                 ++ render (error_code v) (message v) ++ "}")
                below (rapidjson.hasRoot w)).
Proof.
  intros Hstack Harray Hodd.
  assert (Hacc : rapidjson.accepts_value w = true)
    by (unfold rapidjson.accepts_value; now rewrite Hstack, Harray, Hodd).
  unfold bind at 1. rewrite (rjson_serialize_accepted v w Hacc).
  unfold rapidjson.lead, rapidjson.begun. rewrite Hstack. cbn [fst snd].
  assert (Hsep : rapidjson.separator l = ":").
  { unfold rapidjson.separator. rewrite Harray, <- N.negb_odd, Hodd.
    destruct (rapidjson.valueCount l); [discriminate | reflexivity]. }
  assert (Heven : N.even (rapidjson.valueCount (rapidjson.incr l)) = true)
    by (rewrite <- N.negb_odd, odd_incr, Hodd; reflexivity).
  rewrite Hsep. cbn [EndObject rapidjson.Writer_Handler].
  unfold rapidjson.Writer_EndObject, bind at 1, rapidjson.Pop.
  cbn [rapidjson.level_stack rapidjson.os rapidjson.hasRoot].
  replace (rapidjson.inArray (rapidjson.incr l)) with false
    by (symmetry; exact Harray).
  rewrite Heven. cbn [negb].
  cbv beta delta [bind rapidjson.WriteEndObject rapidjson.EndValue
                    rapidjson.Put ret].
  cbn [rapidjson.level_stack rapidjson.os rapidjson.hasRoot].
  now rewrite !string_app_assoc.
Qed.

Lemma rjson_serialize_as_member_witness :
  rapidjson.level_stack
    (rapidjson.mkWriter ("{" ++ quoted "error")
                        [rapidjson.mkLevel 1 false] true)
  = [rapidjson.mkLevel 1 false]
  /\ rapidjson.inArray (rapidjson.mkLevel 1 false) = false
  /\ N.odd (rapidjson.valueCount (rapidjson.mkLevel 1 false)) = true
  /\ (rjson_serialize (mk_error_body 500 "") ;; EndObject)
       (rapidjson.mkWriter ("{" ++ quoted "error")
                           [rapidjson.mkLevel 1 false] true)
     = Ok (true, rapidjson.mkWriter
                   (("{" ++ quoted "error") ++ ":" ++ render 500 "" ++ "}")
                   [] true).
Proof.
  split; [reflexivity|]. split; [reflexivity|]. split; [reflexivity|].
  apply (rjson_serialize_as_member
           (mk_error_body 500 "")
           (rapidjson.mkWriter ("{" ++ quoted "error")
                               [rapidjson.mkLevel 1 false] true)
           (rapidjson.mkLevel 1 false) []); reflexivity.
Defined.
